(** * Paragraph analysis service: [services/paragraph-analysis/api.py]

    A shallow embedding of the Flask handler [analyze_paragraph] and the
    properties of its request/response contract.

    The handler is modelled in a small state-and-exception monad: the
    state is everything that lives outside the handler (the application
    object, stored data), an exception is a Python exception that leaves
    the handler.  Values are Python values as [request.get_json()]
    produces them and as [jsonify] consumes them. *)

From Stdlib Require Import ZArith List Ascii String Floats.PrimFloat.
From stdpp Require Import gmap strings list fin_maps.

Set Warnings "-register-all".

(** ** Python values *)

(** A Python [str] is a sequence of Unicode code points; [len] counts
    them. *)
Abbreviation pystr := (list N).

(** The [str] of a source literal (the literals of [api.py] are ASCII). *)
Definition str (s : string) : pystr := N_of_ascii <$> list_ascii_of_string s.

(** What the JSON decoder builds: [None], [bool], [int], [float], [str],
    [list] and [dict] with [str] keys.  Two dicts are equal when they
    have the same keys with the same values. *)
Inductive pyval : Type :=
  | PNone
  | PBool (b : bool)
  | PInt (z : Z)
  | PFloat (f : PrimFloat.float)
  | PStr (s : pystr)
  | PList (l : list pyval)
  | PDict (d : gmap pystr pyval).

(** ** Exceptions and the handler monad *)

Inductive exn : Type :=
  | AttributeError
  | TypeError
  | HTTPException (code : Z).

Inductive outcome (A : Type) : Type :=
  | Return (a : A)
  | Raise (e : exn).
Arguments Return {A} a.
Arguments Raise {A} e.

(** A Flask [Response] as far as the handler determines it. *)
Record Response : Type := mkResponse { status_code : Z; json : pyval }.

(** The request object: [body_json] is what parsing the body yields, a
    value or the error the framework raises for a body it cannot
    decode. *)
Record Request : Type := mkRequest { body_json : outcome pyval }.

Module Py.

(** [obj.get(key, default)]: only a dict has the attribute [get]. *)
Definition get (obj : pyval) (key : pystr) (default : pyval) : outcome pyval :=
  match obj with
  | PDict d =>
      match d !! key with
      | Some v => Return v
      | None => Return default
      end
  | PNone | PBool _ | PInt _ | PFloat _ | PStr _ | PList _ => Raise AttributeError
  end.

(** [len(obj)]: defined on the sized types, a [TypeError] elsewhere. *)
Definition len (obj : pyval) : outcome Z :=
  match obj with
  | PStr s => Return (Z.of_nat (length s))
  | PList l => Return (Z.of_nat (length l))
  | PDict d => Return (Z.of_nat (size d))
  | PNone | PBool _ | PInt _ | PFloat _ => Raise TypeError
  end.

(** [range(n)] as the list it iterates over. *)
Definition range (n : Z) : list Z := Z.of_nat <$> seq 0 (Z.to_nat n).

(** [obj[key]] read on a dict, [None] when it is no dict or has no
    such key. *)
Definition field (key : string) (obj : pyval) : option pyval :=
  match obj with
  | PDict d => d !! str key
  | _ => None
  end.

(** The key set of a dict. *)
Definition keys (obj : pyval) : option (gset pystr) :=
  match obj with
  | PDict d => Some (dom d)
  | _ => None
  end.

(** [obj] without [key] (a copy after [del obj[key]]); other values are
    left as they are. *)
Definition without (key : string) (obj : pyval) : pyval :=
  match obj with
  | PDict d => PDict (delete (str key) d)
  | _ => obj
  end.

(** [isinstance(obj, dict)] *)
Definition is_dict (obj : pyval) : bool :=
  match obj with
  | PDict _ => true
  | _ => false
  end.

(** [isinstance(obj, list)] *)
Definition is_list (obj : pyval) : bool :=
  match obj with
  | PList _ => true
  | _ => false
  end.

(** The types that [len] accepts: [str], [list] and [dict]. *)
Definition sized (obj : pyval) : bool :=
  match obj with
  | PStr _ | PList _ | PDict _ => true
  | PNone | PBool _ | PInt _ | PFloat _ => false
  end.

End Py.

Section Handler.

(** Whatever is visible outside the handler. *)
Context {world : Type}.

Definition M (A : Type) : Type := world -> outcome A * world.

Definition ret {A} (a : A) : M A := fun w => (Return a, w).

Definition bind {A B} (m : M A) (k : A -> M B) : M B :=
  fun w =>
    match m w with
    | (Return a, w') => k a w'
    | (Raise e, w') => (Raise e, w')
    end.

Definition lift {A} (o : outcome A) : M A := fun w => (o, w).

(** [request.get_json()] *)
Definition get_json (request : Request) : M pyval := lift (body_json request).

(** [jsonify(obj)]: a 200 response carrying [obj]. *)
Definition jsonify (obj : pyval) : M Response :=
  ret {| status_code := 200; json := obj |}.

End Handler.

Notation "x <- m ;; k" := (bind m (fun x => k))
  (at level 100, m at next level, right associativity).

(** ** The handler *)

(** The dict under ["analysisData"], key for key as the source has it. *)
Definition analysisData : pyval :=
  PDict {[ str "sentimentScore" := PFloat 0.5;
           str "readibilityScore" := PFloat 0.5;
           str "topics" := PList [PStr (str "topic1"); PStr (str "topic2")];
           str "summary" := PStr (str "summary");
           str "suggestions" := PList [PStr (str "suggestion1"); PStr (str "suggestion2")];
           str "references" := PList [PStr (str "reference1"); PStr (str "reference2")];
           str "tags" := PList [PStr (str "tag1"); PStr (str "tag2")] ]}.

(** The element of the comprehension for loop variable [i]. *)
Definition record (i : Z) : pyval :=
  PDict {[ str "index" := PInt i;
           str "analysisData" := analysisData ]}.

Definition analyze_paragraph {world : Type} (request : Request) : M (world := world) Response :=
  data <- get_json request ;;
  paragraphs <- lift (Py.get data (str "paragraphs") (PList [])) ;;
  n <- lift (Py.len paragraphs) ;;
  let response :=
    PDict {[ str "analysisResults" := PList (record <$> Py.range n) ]} in
  jsonify response.

(** ** The framework around the handler *)

(** The status of the reply that Flask sends for an outcome of a view
    function registered with [app.route]: the returned response's own
    status, the code of an HTTP exception, and 500 (internal server
    error) for any other exception, as no error handler is registered on
    [app]. *)
Definition reply_status (o : outcome Response) : Z :=
  match o with
  | Return r => status_code r
  | Raise (HTTPException code) => code
  | Raise AttributeError | Raise TypeError => 500
  end.

(** ** Shape of a response *)

(** An object with exactly the keys [index], an integer, and
    [analysisData], an object. *)
Definition is_record (v : pyval) : Prop :=
  Py.keys v = Some {[ str "index"; str "analysisData" ]} ∧
  (∃ i, Py.field "index" v = Some (PInt i)) ∧
  (∃ ad, Py.field "analysisData" v = Some (PDict ad)).

(** A 200 response whose body is an object with the one key
    [analysisResults], a list of records. *)
Definition well_formed (resp : Response) : Prop :=
  status_code resp = 200%Z ∧
  Py.keys (json resp) = Some {[ str "analysisResults" ]} ∧
  ∃ results,
    Py.field "analysisResults" (json resp) = Some (PList results) ∧
    Forall is_record results.

(** The response body that carries [results]. *)
Definition response_of (results : list pyval) : Response :=
  {| status_code := 200; json := PDict {[ str "analysisResults" := PList results ]} |}.

(** ** The object of the specification's example *)

(** The [analysisData] object as the specification's example of a
    response writes it, field for field; it is compared with
    [analysisData], the object the source writes. *)
Definition example_analysisData : pyval :=
  PDict {[ str "sentimentScore" := PFloat 0.5;
           str "readabilityScore" := PFloat 0.5;
           str "topics" := PList [PStr (str "topic1"); PStr (str "topic2")];
           str "summary" := PStr (str "summary");
           str "suggestions" := PList [PStr (str "suggestion1"); PStr (str "suggestion2")];
           str "references" := PList [PStr (str "reference1"); PStr (str "reference2")];
           str "tags" := PList [PStr (str "tag1"); PStr (str "tag2")] ]}.

(** ** Requests of the examples *)

(** A request whose body decodes to [body]. *)
Definition request_of (body : pyval) : Request := {| body_json := Return body |}.

(** The body [{"paragraphs": p}]. *)
Definition paragraphs_body (p : pyval) : pyval := PDict {[ str "paragraphs" := p ]}.

(** ** Building blocks of the handler *)

Lemma range_length (n : nat) : length (Py.range (Z.of_nat n)) = n.
Proof. unfold Py.range. by rewrite length_fmap, Nat2Z.id, length_seq. Qed.

Lemma range_lookup (n i : nat) :
  (i < n)%nat → Py.range (Z.of_nat n) !! i = Some (Z.of_nat i).
Proof.
  intros Hi. unfold Py.range.
  rewrite list_lookup_fmap, Nat2Z.id, lookup_seq_lt by done. done.
Qed.

Lemma range_lookup_Some (n : Z) (i : nat) (z : Z) :
  Py.range n !! i = Some z → z = Z.of_nat i.
Proof.
  unfold Py.range. rewrite list_lookup_fmap.
  destruct (seq 0 (Z.to_nat n) !! i) as [k|] eqn:Hk; [|done].
  apply lookup_seq in Hk as [-> _]. by intros [= <-].
Qed.

Lemma record_index (i : Z) : Py.field "index" (record i) = Some (PInt i).
Proof. reflexivity. Qed.

Lemma record_analysisData (i : Z) : Py.field "analysisData" (record i) = Some analysisData.
Proof. reflexivity. Qed.

Lemma record_keys (i : Z) :
  Py.keys (record i) = Some {[ str "index"; str "analysisData" ]}.
Proof. vm_compute. reflexivity. Qed.

Lemma record_is_record (i : Z) : is_record (record i).
Proof.
  split; [apply record_keys|]. split.
  - exists i. apply record_index.
  - eexists. apply record_analysisData.
Qed.

Lemma response_of_well_formed (results : list pyval) :
  Forall is_record results → well_formed (response_of results).
Proof.
  intros Hr. split; [done|]. split.
  - reflexivity.
  - exists results. split; [|done]. simpl. apply lookup_singleton_eq.
Qed.

(** The handler on a body that is a dict, as one equation: the outcome
    is decided by [len] of the looked-up field. *)
Lemma analyze_paragraph_dict {world} (request : Request) (w : world) d :
  body_json request = Return (PDict d) →
  analyze_paragraph request w =
    match Py.len (default (PList []) (d !! str "paragraphs")) with
    | Return n => (Return (response_of (record <$> Py.range n)), w)
    | Raise e => (Raise e, w)
    end.
Proof.
  intros Hbody.
  unfold analyze_paragraph, bind, get_json, lift, jsonify, ret. rewrite Hbody.
  simpl. destruct (d !! str "paragraphs") as [p|]; simpl.
  - by destruct (Py.len p).
  - done.
Qed.

(** Whenever the handler returns, it returns the comprehension over
    some [range(n)], and the outside state is the one it started in. *)
Lemma analyze_paragraph_returns {world} (request : Request) (w w' : world) resp :
  analyze_paragraph request w = (Return resp, w') →
  ∃ n, resp = response_of (record <$> Py.range n) ∧ w' = w.
Proof.
  destruct request as [[data|e]]; [|by inversion 1].
  destruct data as [| | | | | |d]; try by inversion 1.
  rewrite (analyze_paragraph_dict _ w d) by done.
  destruct (Py.len _) as [n|e]; [|by inversion 1].
  intros [= <- <-]. by exists n.
Qed.

(** ** The request/response contract *)

(** C1: for a body that is a JSON object whose [paragraphs] field is a
    list of N elements, the handler returns a response whose
    [analysisResults] list has exactly N entries, and the entry at
    position i has [index] equal to i, for every i from 0 to N-1. *)
Theorem analyze_paragraph_one_record_per_paragraph {world} (request : Request) (w : world)
    (d : gmap pystr pyval) (ps : list pyval) :
  body_json request = Return (PDict d) →
  d !! str "paragraphs" = Some (PList ps) →
  ∃ results,
    analyze_paragraph request w = (Return (response_of results), w) ∧
    length results = length ps ∧
    ∀ i, (i < length ps)%nat →
      ∃ r, results !! i = Some r ∧ Py.field "index" r = Some (PInt (Z.of_nat i)).
Proof.
  intros Hbody Hps.
  exists (record <$> Py.range (Z.of_nat (length ps))).
  rewrite (analyze_paragraph_dict _ w d), Hps by done. simpl.
  split; [done|]. split.
  - by rewrite length_fmap, range_length.
  - intros i Hi. exists (record (Z.of_nat i)). split; [|apply record_index].
    by rewrite list_lookup_fmap, range_lookup.
Qed.

Lemma analyze_paragraph_one_record_per_paragraph_witness :
  ∃ results,
    analyze_paragraph
      (request_of (paragraphs_body (PList [PStr (str "A"); PStr (str "B"); PStr (str "C")]))) tt
    = (Return (response_of results), tt) ∧
    length results = 3%nat ∧
    ∀ i, (i < 3)%nat →
      ∃ r, results !! i = Some r ∧ Py.field "index" r = Some (PInt (Z.of_nat i)).
Proof.
  apply (analyze_paragraph_one_record_per_paragraph
           (request_of (paragraphs_body (PList [PStr (str "A"); PStr (str "B"); PStr (str "C")])))
           tt
           {[ str "paragraphs" := PList [PStr (str "A"); PStr (str "B"); PStr (str "C")] ]}
           [PStr (str "A"); PStr (str "B"); PStr (str "C")]).
  - reflexivity.
  - reflexivity.
Defined.

(** C2: every record's [analysisData] is to equal the fixed object of
    the example, [example_analysisData].  The handler does not deliver
    that.  For every non-empty paragraph list every record carries one
    and the same object, [analysisData], whatever the request holds, and
    that object is not the example's: the two agree on sentimentScore,
    topics, summary, suggestions, references and tags and on everything
    else but one key, the score that the example has under
    [readabilityScore] and the source writes under [readibilityScore]. *)
Theorem analysisData_is_not_the_example {world} (request : Request) (w : world)
    (d : gmap pystr pyval) (ps : list pyval) :
  body_json request = Return (PDict d) →
  d !! str "paragraphs" = Some (PList ps) →
  (0 < length ps)%nat →
  (∃ results,
     analyze_paragraph request w = (Return (response_of results), w) ∧
     length results = length ps ∧
     ∀ r, r ∈ results →
       Py.field "analysisData" r = Some analysisData ∧
       Py.field "analysisData" r ≠ Some example_analysisData) ∧
  Py.without "readibilityScore" analysisData
    = Py.without "readabilityScore" example_analysisData ∧
  Py.field "readibilityScore" analysisData = Some (PFloat 0.5) ∧
  Py.field "readabilityScore" example_analysisData = Some (PFloat 0.5) ∧
  Py.field "readabilityScore" analysisData = None.
Proof.
  intros Hbody Hps _.
  assert (Hne : Some analysisData ≠ Some example_analysisData).
  { intros Heq.
    pose proof (f_equal (from_option (Py.field "readabilityScore") None) Heq) as Hf.
    vm_compute in Hf. discriminate Hf. }
  split; [|repeat split; vm_compute; reflexivity].
  exists (record <$> Py.range (Z.of_nat (length ps))).
  rewrite (analyze_paragraph_dict _ w d), Hps by done. simpl.
  split; [done|]. split.
  - by rewrite length_fmap, range_length.
  - intros r Hr. apply list_elem_of_fmap in Hr as (i & -> & _).
    by rewrite record_analysisData.
Qed.

Lemma analysisData_is_not_the_example_witness :
  (∃ results,
     analyze_paragraph
       (request_of (paragraphs_body (PList [PStr (str "Hello world.")]))) tt
     = (Return (response_of results), tt) ∧
     length results = 1%nat ∧
     ∀ r, r ∈ results →
       Py.field "analysisData" r = Some analysisData ∧
       Py.field "analysisData" r ≠ Some example_analysisData) ∧
  Py.without "readibilityScore" analysisData
    = Py.without "readabilityScore" example_analysisData ∧
  Py.field "readibilityScore" analysisData = Some (PFloat 0.5) ∧
  Py.field "readabilityScore" example_analysisData = Some (PFloat 0.5) ∧
  Py.field "readabilityScore" analysisData = None.
Proof.
  apply (analysisData_is_not_the_example
           (request_of (paragraphs_body (PList [PStr (str "Hello world.")])))
           tt
           {[ str "paragraphs" := PList [PStr (str "Hello world.")] ]}
           [PStr (str "Hello world.")]).
  - reflexivity.
  - reflexivity.
  - simpl. lia.
Defined.

(** C3: every [analysisData] is to contain a field named
    [readabilityScore], fixed at 0.5.  The handler does not deliver it:
    on the request [{"paragraphs": ["Hello world."]}] the one record's
    [analysisData] has no such key, and the value 0.5 sits under the key
    that the source spells [readibilityScore]. *)
Lemma readabilityScore_key_misspelled :
  ∃ r ad,
    analyze_paragraph
      (request_of (paragraphs_body (PList [PStr (str "Hello world.")]))) tt
    = (Return (response_of [r]), tt) ∧
    Py.field "analysisData" r = Some ad ∧
    Py.field "readabilityScore" ad = None ∧
    Py.field "readibilityScore" ad = Some (PFloat 0.5).
Proof.
  exists (record 0), analysisData.
  split; [|split; [|split]]; reflexivity.
Qed.

(** C4: two bodies whose [paragraphs] lists have the same length get
    identical responses, whatever the lists contain and whatever the
    state the handler runs in; and any two records of the two responses
    carry the same [analysisData]. *)
Theorem same_length_same_response {world} (request1 request2 : Request) (w1 w2 : world)
    (d1 d2 : gmap pystr pyval) (ps1 ps2 : list pyval) :
  body_json request1 = Return (PDict d1) →
  d1 !! str "paragraphs" = Some (PList ps1) →
  body_json request2 = Return (PDict d2) →
  d2 !! str "paragraphs" = Some (PList ps2) →
  length ps1 = length ps2 →
  ∃ results,
    (analyze_paragraph request1 w1).1 = Return (response_of results) ∧
    (analyze_paragraph request2 w2).1 = Return (response_of results) ∧
    length results = length ps1 ∧
    ∀ x y, x ∈ results → y ∈ results →
      is_Some (Py.field "analysisData" x) ∧
      Py.field "analysisData" x = Py.field "analysisData" y.
Proof.
  intros Hb1 Hp1 Hb2 Hp2 Hlen.
  exists (record <$> Py.range (Z.of_nat (length ps1))).
  rewrite (analyze_paragraph_dict _ w1 d1), Hp1 by done.
  rewrite (analyze_paragraph_dict _ w2 d2), Hp2 by done.
  simpl. rewrite <- Hlen.
  split; [done|]. split; [done|]. split.
  - by rewrite length_fmap, range_length.
  - intros x y Hx Hy.
    apply list_elem_of_fmap in Hx as (i & -> & _).
    apply list_elem_of_fmap in Hy as (j & -> & _).
    rewrite !record_analysisData. eauto.
Qed.

Lemma same_length_same_response_witness :
  ∃ results,
    (analyze_paragraph
       (request_of (paragraphs_body (PList [PStr (str "A"); PStr (str "B")]))) tt).1
    = Return (response_of results) ∧
    (analyze_paragraph
       (request_of (paragraphs_body (PList [PInt 7; PNone]))) tt).1
    = Return (response_of results) ∧
    length results = 2%nat ∧
    ∀ x y, x ∈ results → y ∈ results →
      is_Some (Py.field "analysisData" x) ∧
      Py.field "analysisData" x = Py.field "analysisData" y.
Proof.
  apply (same_length_same_response
           (request_of (paragraphs_body (PList [PStr (str "A"); PStr (str "B")])))
           (request_of (paragraphs_body (PList [PInt 7; PNone])))
           tt tt
           {[ str "paragraphs" := PList [PStr (str "A"); PStr (str "B")] ]}
           {[ str "paragraphs" := PList [PInt 7; PNone] ]}
           [PStr (str "A"); PStr (str "B")]
           [PInt 7; PNone]).
  - reflexivity.
  - reflexivity.
  - reflexivity.
  - reflexivity.
  - reflexivity.
Defined.

(** C5: a body that is a JSON object without a [paragraphs] field, and
    the body [{"paragraphs": []}], both succeed and give
    [{"analysisResults": []}]. *)
Theorem missing_or_empty_paragraphs {world} (request : Request) (w : world)
    (d : gmap pystr pyval) :
  body_json request = Return (PDict d) →
  d !! str "paragraphs" = None →
  analyze_paragraph request w = (Return (response_of []), w) ∧
  analyze_paragraph (request_of (paragraphs_body (PList []))) w
    = (Return (response_of []), w).
Proof.
  intros Hbody Hnone. split.
  - by rewrite (analyze_paragraph_dict _ w d), Hnone.
  - reflexivity.
Qed.

Lemma missing_or_empty_paragraphs_witness :
  analyze_paragraph (request_of (PDict ∅)) tt = (Return (response_of []), tt) ∧
  analyze_paragraph (request_of (paragraphs_body (PList []))) tt
    = (Return (response_of []), tt).
Proof.
  apply (missing_or_empty_paragraphs (request_of (PDict ∅)) tt ∅).
  - reflexivity.
  - reflexivity.
Defined.

(** C6 does not hold for every value of the field: on the JSON-object
    body [{"paragraphs": 5}] the handler raises [TypeError], so not
    every JSON-object body gets a well-formed response. *)
Lemma paragraphs_number_raises :
  analyze_paragraph (request_of (paragraphs_body (PInt 5))) tt = (Raise TypeError, tt) ∧
  ¬ (∀ (request : Request) (w : unit) (d : gmap pystr pyval),
       body_json request = Return (PDict d) →
       ∃ resp, analyze_paragraph request w = (Return resp, w) ∧ well_formed resp).
Proof.
  split; [reflexivity|].
  intros Hall.
  destruct (Hall (request_of (paragraphs_body (PInt 5))) tt
              {[ str "paragraphs" := PInt 5 ]} eq_refl) as (resp & Hrun & _).
  discriminate Hrun.
Qed.

(** C6, amended: for a JSON-object body whose [paragraphs] field is
    absent or is a list of arbitrary elements, a string or an object,
    the handler raises no error and returns a well-formed response,
    with no validation of the elements; when the field is a number, a
    boolean or null, the handler raises [TypeError]. *)
Theorem sized_paragraphs_well_formed {world} (request : Request) (w : world)
    (d : gmap pystr pyval) :
  body_json request = Return (PDict d) →
  if Py.sized (default (PList []) (d !! str "paragraphs"))
  then ∃ resp, analyze_paragraph request w = (Return resp, w) ∧ well_formed resp
  else analyze_paragraph request w = (Raise TypeError, w).
Proof.
  intros Hbody. rewrite (analyze_paragraph_dict _ w d) by done.
  destruct (default (PList []) (d !! str "paragraphs")) as [| | | |s|l|m]; simpl;
    try reflexivity;
    (eexists; split; [reflexivity|]; apply response_of_well_formed;
     apply Forall_fmap, Forall_forall; intros i _; apply record_is_record).
Qed.

Lemma sized_paragraphs_well_formed_witness :
  ∃ resp,
    analyze_paragraph
      (request_of (paragraphs_body (PList [PNone; PInt 3; PList []]))) tt
    = (Return resp, tt) ∧
    well_formed resp.
Proof.
  exact (sized_paragraphs_well_formed
           (request_of (paragraphs_body (PList [PNone; PInt 3; PList []])))
           tt
           {[ str "paragraphs" := PList [PNone; PInt 3; PList []] ]}
           eq_refl).
Defined.

(** C8: when the [paragraphs] field is a sized value that is no list,
    the handler returns records, and their number is the value's Python
    length: the number of characters of a string (three for ["abc"]),
    the number of keys of an object.  Each entry is a record, the one
    at position i with [index] i and the fixed [analysisData]. *)
Theorem sized_non_list_record_count {world} (request : Request) (w : world)
    (d : gmap pystr pyval) (p : pyval) (n : Z) :
  body_json request = Return (PDict d) →
  d !! str "paragraphs" = Some p →
  Py.is_list p = false →
  Py.len p = Return n →
  ∃ results,
    analyze_paragraph request w = (Return (response_of results), w) ∧
    Z.of_nat (length results) = n ∧
    (∀ s, p = PStr s → length results = length s) ∧
    (∀ m, p = PDict m → length results = size m) ∧
    Forall is_record results ∧
    ∀ (i : nat) r, results !! i = Some r →
      Py.field "index" r = Some (PInt (Z.of_nat i)) ∧
      Py.field "analysisData" r = Some analysisData.
Proof.
  intros Hbody Hp _ Hlen.
  assert (Hn : (0 ≤ n)%Z) by (destruct p; simplify_eq/=; lia).
  exists (record <$> Py.range n).
  rewrite (analyze_paragraph_dict _ w d), Hp by done. simpl. rewrite Hlen.
  split; [done|].
  assert (Hcount : Z.of_nat (length (record <$> Py.range n)) = n).
  { rewrite <- (Z2Nat.id n) at 1 by done.
    by rewrite length_fmap, range_length, Z2Nat.id. }
  split; [done|]. split; [|split; [|split]].
  - intros s ->. simpl in Hlen. simplify_eq. lia.
  - intros m ->. simpl in Hlen. simplify_eq. lia.
  - apply Forall_fmap, Forall_forall. intros i _. apply record_is_record.
  - intros i r. rewrite list_lookup_fmap.
    destruct (Py.range n !! i) as [z|] eqn:Hz; [|done].
    apply range_lookup_Some in Hz as ->. intros [= <-].
    split; [apply record_index | apply record_analysisData].
Qed.

Lemma sized_non_list_record_count_witness :
  ∃ results,
    analyze_paragraph (request_of (paragraphs_body (PStr (str "abc")))) tt
    = (Return (response_of results), tt) ∧
    Z.of_nat (length results) = 3%Z ∧
    (∀ s, PStr (str "abc") = PStr s → length results = length s) ∧
    (∀ m, PStr (str "abc") = PDict m → length results = size m) ∧
    Forall is_record results ∧
    ∀ (i : nat) r, results !! i = Some r →
      Py.field "index" r = Some (PInt (Z.of_nat i)) ∧
      Py.field "analysisData" r = Some analysisData.
Proof.
  apply (sized_non_list_record_count
           (request_of (paragraphs_body (PStr (str "abc"))))
           tt
           {[ str "paragraphs" := PStr (str "abc") ]}
           (PStr (str "abc")) 3).
  - reflexivity.
  - reflexivity.
  - reflexivity.
  - reflexivity.
Defined.

(** C9: for a body that is valid JSON but no JSON object (a list, a
    string, a number, null or a boolean), the handler raises
    [AttributeError] at the lookup of [get]; the reply is a 500, and no
    response, in particular none with an empty [analysisResults], is
    returned. *)
Theorem non_object_body_raises {world} (request : Request) (w : world) (data : pyval) :
  body_json request = Return data →
  Py.is_dict data = false →
  analyze_paragraph request w = (Raise AttributeError, w) ∧
  reply_status (analyze_paragraph request w).1 = 500%Z ∧
  (analyze_paragraph request w).1 ≠ Return (response_of []).
Proof.
  intros Hbody Hnd.
  assert (Hrun : analyze_paragraph request w = (Raise AttributeError, w)).
  { unfold analyze_paragraph, bind, get_json, lift. rewrite Hbody.
    by destruct data. }
  rewrite Hrun. by repeat split.
Qed.

Lemma non_object_body_raises_witness :
  analyze_paragraph (request_of (PList [PStr (str "A")])) tt = (Raise AttributeError, tt) ∧
  reply_status (analyze_paragraph (request_of (PList [PStr (str "A")])) tt).1 = 500%Z ∧
  (analyze_paragraph (request_of (PList [PStr (str "A")])) tt).1 ≠ Return (response_of []).
Proof.
  apply (non_object_body_raises (request_of (PList [PStr (str "A")])) tt
           (PList [PStr (str "A")])).
  - reflexivity.
  - reflexivity.
Defined.

(** C10: every successful response is an object with exactly one
    top-level key, [analysisResults], whose value is a list, and every
    element of that list is an object with exactly the two keys [index]
    and [analysisData]. *)
Theorem successful_response_shape {world} (request : Request) (w w' : world)
    (resp : Response) :
  analyze_paragraph request w = (Return resp, w') →
  Py.keys (json resp) = Some {[ str "analysisResults" ]} ∧
  ∃ results,
    Py.field "analysisResults" (json resp) = Some (PList results) ∧
    ∀ r, r ∈ results → Py.keys r = Some {[ str "index"; str "analysisData" ]}.
Proof.
  intros Hrun. apply analyze_paragraph_returns in Hrun as (n & -> & _).
  split; [reflexivity|].
  exists (record <$> Py.range n). split; [reflexivity|].
  intros r Hr. apply list_elem_of_fmap in Hr as (i & -> & _).
  apply record_keys.
Qed.

Lemma successful_response_shape_witness :
  Py.keys (json (response_of [record 0; record 1])) = Some {[ str "analysisResults" ]} ∧
  ∃ results,
    Py.field "analysisResults" (json (response_of [record 0; record 1]))
    = Some (PList results) ∧
    ∀ r, r ∈ results → Py.keys r = Some {[ str "index"; str "analysisData" ]}.
Proof.
  apply (successful_response_shape
           (request_of (paragraphs_body (PList [PStr (str "A"); PStr (str "B")])))
           tt tt
           (response_of [record 0; record 1])).
  reflexivity.
Defined.

(** ** Further properties of the handler *)

Lemma range_app (a b : nat) :
  Py.range (Z.of_nat (a + b)) = Py.range (Z.of_nat a) ++ (Z.of_nat <$> seq a b).
Proof.
  unfold Py.range. rewrite !Nat2Z.id, seq_app, fmap_app. done.
Qed.



(** X2: of a JSON-object body the handler reads the [paragraphs] key
    and nothing else: two bodies that agree on that key (both without
    it, or both with the same value) get the same outcome, so adding,
    changing or dropping any other key changes nothing. *)
Theorem only_paragraphs_key_is_read {world} (request1 request2 : Request) (w : world)
    (d1 d2 : gmap pystr pyval) :
  body_json request1 = Return (PDict d1) →
  body_json request2 = Return (PDict d2) →
  d1 !! str "paragraphs" = d2 !! str "paragraphs" →
  analyze_paragraph request1 w = analyze_paragraph request2 w ∧
  ∀ (key : pystr) (v : pyval), key ≠ str "paragraphs" →
    analyze_paragraph (request_of (PDict (<[key := v]> d1))) w
    = analyze_paragraph request1 w ∧
    analyze_paragraph (request_of (PDict (delete key d1))) w
    = analyze_paragraph request1 w.
Proof.
  intros Hb1 Hb2 Heq.
  rewrite (analyze_paragraph_dict request1 w d1), (analyze_paragraph_dict request2 w d2) by done.
  split; [by rewrite Heq|].
  intros key v Hne. split.
  - rewrite (analyze_paragraph_dict _ w (<[key := v]> d1)) by done.
    by rewrite lookup_insert_ne.
  - rewrite (analyze_paragraph_dict _ w (delete key d1)) by done.
    by rewrite lookup_delete_ne.
Qed.

Lemma only_paragraphs_key_is_read_witness :
  analyze_paragraph
    (request_of (PDict {[ str "paragraphs" := PList [PStr (str "A")];
                          str "lang" := PStr (str "en") ]})) tt
  = analyze_paragraph (request_of (paragraphs_body (PList [PStr (str "A")]))) tt ∧
  ∀ (key : pystr) (v : pyval), key ≠ str "paragraphs" →
    analyze_paragraph
      (request_of (PDict (<[key := v]> {[ str "paragraphs" := PList [PStr (str "A")];
                                          str "lang" := PStr (str "en") ]}))) tt
    = analyze_paragraph
        (request_of (PDict {[ str "paragraphs" := PList [PStr (str "A")];
                              str "lang" := PStr (str "en") ]})) tt ∧
    analyze_paragraph
      (request_of (PDict (delete key {[ str "paragraphs" := PList [PStr (str "A")];
                                        str "lang" := PStr (str "en") ]}))) tt
    = analyze_paragraph
        (request_of (PDict {[ str "paragraphs" := PList [PStr (str "A")];
                              str "lang" := PStr (str "en") ]})) tt.
Proof.
  apply (only_paragraphs_key_is_read
           (request_of (PDict {[ str "paragraphs" := PList [PStr (str "A")];
                                 str "lang" := PStr (str "en") ]}))
           (request_of (paragraphs_body (PList [PStr (str "A")])))
           tt
           {[ str "paragraphs" := PList [PStr (str "A")]; str "lang" := PStr (str "en") ]}
           {[ str "paragraphs" := PList [PStr (str "A")] ]}).
  - reflexivity.
  - reflexivity.
  - reflexivity.
Defined.

(** X3: of the [paragraphs] value the handler uses [len] and nothing
    else: two values on which [len] gives the same result, whatever
    their types, get the same outcome (a string of two characters, a
    list of two elements and an object of two keys are not told
    apart), and two values on which [len] fails both raise. *)
Theorem outcome_depends_on_len_only {world} (request1 request2 : Request) (w1 w2 : world)
    (d1 d2 : gmap pystr pyval) (p1 p2 : pyval) :
  body_json request1 = Return (PDict d1) →
  d1 !! str "paragraphs" = Some p1 →
  body_json request2 = Return (PDict d2) →
  d2 !! str "paragraphs" = Some p2 →
  Py.len p1 = Py.len p2 →
  (analyze_paragraph request1 w1).1 = (analyze_paragraph request2 w2).1.
Proof.
  intros Hb1 Hp1 Hb2 Hp2 Hlen.
  rewrite (analyze_paragraph_dict request1 w1 d1), Hp1 by done.
  rewrite (analyze_paragraph_dict request2 w2 d2), Hp2 by done.
  simpl. rewrite Hlen. by destruct (Py.len p2).
Qed.

Lemma outcome_depends_on_len_only_witness :
  (analyze_paragraph (request_of (paragraphs_body (PStr (str "ab")))) tt).1
  = (analyze_paragraph
       (request_of (paragraphs_body
          (PDict {[ str "x" := PNone; str "y" := PInt 1 ]}))) tt).1.
Proof.
  apply (outcome_depends_on_len_only
           (request_of (paragraphs_body (PStr (str "ab"))))
           (request_of (paragraphs_body (PDict {[ str "x" := PNone; str "y" := PInt 1 ]})))
           tt tt
           {[ str "paragraphs" := PStr (str "ab") ]}
           {[ str "paragraphs" := PDict {[ str "x" := PNone; str "y" := PInt 1 ]} ]}
           (PStr (str "ab"))
           (PDict {[ str "x" := PNone; str "y" := PInt 1 ]})).
  - reflexivity.
  - reflexivity.
  - reflexivity.
  - reflexivity.
  - vm_compute. reflexivity.
Defined.

(** X4: appending paragraphs to a request only appends records: the
    records for [ps ++ qs] are the records for [ps], unchanged,
    followed by one record per element of [qs] whose indices go on
    from the length of [ps]. *)
Theorem appended_paragraphs_append_records {world} (request1 request2 : Request) (w : world)
    (d1 d2 : gmap pystr pyval) (ps qs : list pyval) :
  body_json request1 = Return (PDict d1) →
  d1 !! str "paragraphs" = Some (PList ps) →
  body_json request2 = Return (PDict d2) →
  d2 !! str "paragraphs" = Some (PList (ps ++ qs)) →
  ∃ results more,
    analyze_paragraph request1 w = (Return (response_of results), w) ∧
    analyze_paragraph request2 w = (Return (response_of (results ++ more)), w) ∧
    length results = length ps ∧
    length more = length qs ∧
    ∀ j, (j < length qs)%nat →
      ∃ r, more !! j = Some r ∧
           Py.field "index" r = Some (PInt (Z.of_nat (length ps + j))).
Proof.
  intros Hb1 Hp1 Hb2 Hp2.
  exists (record <$> Py.range (Z.of_nat (length ps))),
         (record <$> (Z.of_nat <$> seq (length ps) (length qs))).
  rewrite (analyze_paragraph_dict request1 w d1), Hp1 by done.
  rewrite (analyze_paragraph_dict request2 w d2), Hp2 by done.
  simpl. rewrite length_app, range_app, fmap_app.
  split; [done|]. split; [done|]. split; [|split].
  - by rewrite length_fmap, range_length.
  - by rewrite !length_fmap, length_seq.
  - intros j Hj. exists (record (Z.of_nat (length ps + j))).
    split; [|apply record_index].
    by rewrite !list_lookup_fmap, lookup_seq_lt.
Qed.

Lemma appended_paragraphs_append_records_witness :
  ∃ results more,
    analyze_paragraph (request_of (paragraphs_body (PList [PStr (str "A")]))) tt
    = (Return (response_of results), tt) ∧
    analyze_paragraph
      (request_of (paragraphs_body (PList ([PStr (str "A")] ++ [PStr (str "B"); PNone])))) tt
    = (Return (response_of (results ++ more)), tt) ∧
    length results = 1%nat ∧
    length more = 2%nat ∧
    ∀ j, (j < 2)%nat →
      ∃ r, more !! j = Some r ∧ Py.field "index" r = Some (PInt (Z.of_nat (1 + j))).
Proof.
  apply (appended_paragraphs_append_records
           (request_of (paragraphs_body (PList [PStr (str "A")])))
           (request_of (paragraphs_body (PList ([PStr (str "A")] ++ [PStr (str "B"); PNone]))))
           tt
           {[ str "paragraphs" := PList [PStr (str "A")] ]}
           {[ str "paragraphs" := PList ([PStr (str "A")] ++ [PStr (str "B"); PNone]) ]}
           [PStr (str "A")] [PStr (str "B"); PNone]).
  - reflexivity.
  - reflexivity.
  - reflexivity.
  - reflexivity.
Defined.

(** X5: in every response the handler returns, whatever the type of
    the [paragraphs] value was, the record at position i has [index] i;
    hence no record occurs twice. *)
Theorem index_is_position_in_every_response {world} (request : Request) (w w' : world)
    (resp : Response) :
  analyze_paragraph request w = (Return resp, w') →
  ∃ results,
    Py.field "analysisResults" (json resp) = Some (PList results) ∧
    (∀ (i : nat) r, results !! i = Some r →
       Py.field "index" r = Some (PInt (Z.of_nat i))) ∧
    NoDup results.
Proof.
  intros Hrun. apply analyze_paragraph_returns in Hrun as (n & -> & _).
  exists (record <$> Py.range n). split; [reflexivity|].
  assert (Hpos : ∀ (i : nat) r, (record <$> Py.range n) !! i = Some r →
                   Py.field "index" r = Some (PInt (Z.of_nat i))).
  { intros i r. rewrite list_lookup_fmap.
    destruct (Py.range n !! i) as [z|] eqn:Hz; [|done].
    apply range_lookup_Some in Hz as ->. intros [= <-]. apply record_index. }
  split; [done|].
  apply NoDup_alt. intros i j r Hi Hj.
  apply Hpos in Hi. apply Hpos in Hj. rewrite Hi in Hj.
  injection Hj as Hij. lia.
Qed.

Lemma index_is_position_in_every_response_witness :
  ∃ results,
    Py.field "analysisResults" (json (response_of [record 0; record 1; record 2]))
    = Some (PList results) ∧
    (∀ (i : nat) r, results !! i = Some r →
       Py.field "index" r = Some (PInt (Z.of_nat i))) ∧
    NoDup results.
Proof.
  apply (index_is_position_in_every_response
           (request_of (paragraphs_body (PStr (str "abc")))) tt tt
           (response_of [record 0; record 1; record 2])).
  reflexivity.
Defined.

(** X6: for a body that decodes, the three outcomes of the handler are
    told apart by the body alone: it returns exactly when the body is
    an object whose [paragraphs] value is absent, a string, a list or
    an object; it raises [AttributeError] exactly when the body is no
    object; it raises [TypeError] exactly when the body is an object
    whose [paragraphs] value is null, a boolean or a number. *)
Theorem outcome_classification {world} (request : Request) (w : world) (data : pyval) :
  body_json request = Return data →
  ((∃ resp, (analyze_paragraph request w).1 = Return resp) ↔
     ∃ d, data = PDict d ∧ Py.sized (default (PList []) (d !! str "paragraphs")) = true) ∧
  ((analyze_paragraph request w).1 = Raise AttributeError ↔ Py.is_dict data = false) ∧
  ((analyze_paragraph request w).1 = Raise TypeError ↔
     ∃ d, data = PDict d ∧ Py.sized (default (PList []) (d !! str "paragraphs")) = false).
Proof.
  intros Hbody. destruct (Py.is_dict data) eqn:Hd.
  - destruct data as [| | | | | |d]; try discriminate Hd.
    rewrite (analyze_paragraph_dict request w d) by done.
    destruct (default (PList []) (d !! str "paragraphs")) as [| | | |s|l|m] eqn:Hp; simpl;
      (split; [|split]); split;
      try (intros (resp & Hr); discriminate Hr);
      try (intros (d' & [= <-] & Hs); rewrite Hp in Hs; discriminate Hs);
      try discriminate; eauto;
      intros _; exists d; by rewrite Hp.
  - assert (Hrun : analyze_paragraph request w = (Raise AttributeError, w)).
    { unfold analyze_paragraph, bind, get_json, lift. rewrite Hbody. by destruct data. }
    rewrite Hrun. simpl. (split; [|split]); split;
      try (intros (resp & Hr); discriminate Hr);
      try (intros (d' & -> & _); discriminate Hd);
      try discriminate; done.
Qed.

Lemma outcome_classification_witness :
  ((∃ resp, (analyze_paragraph (request_of (paragraphs_body PNone)) tt).1 = Return resp) ↔
     ∃ d, paragraphs_body PNone = PDict d ∧
          Py.sized (default (PList []) (d !! str "paragraphs")) = true) ∧
  ((analyze_paragraph (request_of (paragraphs_body PNone)) tt).1 = Raise AttributeError ↔
     Py.is_dict (paragraphs_body PNone) = false) ∧
  ((analyze_paragraph (request_of (paragraphs_body PNone)) tt).1 = Raise TypeError ↔
     ∃ d, paragraphs_body PNone = PDict d ∧
          Py.sized (default (PList []) (d !! str "paragraphs")) = false).
Proof.
  apply (outcome_classification (request_of (paragraphs_body PNone)) tt
           (paragraphs_body PNone)).
  reflexivity.
Defined.

(** X7: in every response the handler returns, every record's
    [analysisData] is an object with exactly seven keys, the ones the
    source writes: [sentimentScore], [readibilityScore], [topics],
    [summary], [suggestions], [references] and [tags]; nothing taken
    from the request is echoed into it. *)
Theorem analysisData_has_exactly_seven_keys {world} (request : Request) (w w' : world)
    (resp : Response) :
  analyze_paragraph request w = (Return resp, w') →
  ∃ results,
    Py.field "analysisResults" (json resp) = Some (PList results) ∧
    ∀ r, r ∈ results →
      ∃ ad,
        Py.field "analysisData" r = Some ad ∧
        Py.keys ad = Some {[ str "sentimentScore"; str "readibilityScore"; str "topics";
                             str "summary"; str "suggestions"; str "references";
                             str "tags" ]}.
Proof.
  intros Hrun. apply analyze_paragraph_returns in Hrun as (n & -> & _).
  exists (record <$> Py.range n). split; [reflexivity|].
  intros r Hr. apply list_elem_of_fmap in Hr as (i & -> & _).
  exists analysisData. split; [apply record_analysisData|].
  vm_compute. reflexivity.
Qed.

Lemma analysisData_has_exactly_seven_keys_witness :
  ∃ results,
    Py.field "analysisResults" (json (response_of [record 0])) = Some (PList results) ∧
    ∀ r, r ∈ results →
      ∃ ad,
        Py.field "analysisData" r = Some ad ∧
        Py.keys ad = Some {[ str "sentimentScore"; str "readibilityScore"; str "topics";
                             str "summary"; str "suggestions"; str "references";
                             str "tags" ]}.
Proof.
  apply (analysisData_has_exactly_seven_keys
           (request_of (paragraphs_body (PList [PStr (str "Hello world.")]))) tt tt
           (response_of [record 0])).
  reflexivity.
Defined.
